(** * Document loading: selector, loaders, configuration and facade

    A shallow embedding of [loading_documents/document_loader.py] and
    [loading_documents/exceptions.py].

    - Python [int] is [Z]; Python [str] is [string]. [str.lower] is exact on
      ASCII text; on other text only its comparison with [.pdf], [.docx] and
      [.txt] is, and what is stated about lowered text assumes ASCII. The
      paths are POSIX paths: [os.path] is [posixpath].
    - A call that may raise returns a [result]; an exception is the pair of
      the class that selects its [except] clause and of [str(e)].
    - The file system ([os.path.exists]) and the external format parsers
      ([PyPDFLoader], [Docx2txtLoader], [TextLoader] with their [load] and
      [load_and_split]) are the fields of a [World].
    - The configuration object is the state threaded through the calls of the
      configuration and of the facade, so that "does not modify" is a
      statement about the state after the call.
    - The script under [if __name__ == "__main__"] is [main]: its value is the
      list of the lines it prints. *)

From Stdlib Require Import String Ascii List ZArith Lia Bool.
From Stdlib Require Import DecimalString.
Import ListNotations.
Open Scope string_scope.
Open Scope Z_scope.

(** ** Exceptions *)

Module Exn.

(** The classes the [except] clauses of the source tell apart.
    [FileNotFoundError] is Python's builtin (the source does not define it);
    the three custom classes are those of [exceptions.py]; [OtherException]
    stands for every other subclass of [Exception]. *)
Inductive cls : Type :=
| FileNotFoundError
| UnsupportedFileTypeError
| FileLoadError
| InvalidConfigurationError
| OtherException.

(** An exception instance: its class and [str(e)]. *)
Record t : Type := Raise { class : cls; str : string }.

End Exn.

Definition exn : Type := Exn.t.

(** ** Calls that may raise *)

Inductive result (A : Type) : Type :=
| Ok (a : A)
| Err (e : exn).
Arguments Ok {A} a.
Arguments Err {A} e.

Definition rbind {A B} (r : result A) (k : A -> result B) : result B :=
  match r with
  | Ok a => k a
  | Err e => Err e
  end.

(** [try: r  except Exception as e: raise h(e)] *)
Definition try_except {A} (r : result A) (h : exn -> result A) : result A :=
  match r with
  | Ok a => Ok a
  | Err e => h e
  end.

(** ** Strings: [str.rfind], slices, [os.path.splitext], [str.lower] *)

Module Str.

(** [p.rfind(c)] for a one-character [c]: the greatest index of [c] in [p],
    [-1] when there is none. [i] is the index of the head of [s] and [last]
    the answer for what was read so far. *)
Fixpoint rfind_from (c : ascii) (s : string) (i last : Z) : Z :=
  match s with
  | EmptyString => last
  | String a s' => rfind_from c s' (i + 1) (if Ascii.eqb a c then i else last)
  end.

Definition rfind (c : ascii) (p : string) : Z := rfind_from c p 0 (-1).

(** [p[i:j]] for [0 <= i]. *)
Definition slice (p : string) (i j : Z) : string :=
  substring (Z.to_nat i) (Z.to_nat (j - i)) p.

(** [p[:i]] and [p[i:]] for [0 <= i]. *)
Definition take (p : string) (i : Z) : string := substring 0 (Z.to_nat i) p.
Definition drop (p : string) (i : Z) : string :=
  substring (Z.to_nat i) (String.length p - Z.to_nat i) p.

Definition sep : ascii := "/"%char.
Definition extsep : ascii := "."%char.

(** The loop of [genericpath._splitext]:
    [while filenameIndex < dotIndex:
       if p[filenameIndex:filenameIndex+1] != extsep: return (split at the dot)
       filenameIndex += 1]
    [n] is [dotIndex - filenameIndex], the number of rounds left. The answer
    is [true] when the loop returns the split, [false] when it falls through. *)
Fixpoint has_name_before_dot (p : string) (filenameIndex : Z) (n : nat) : bool :=
  match n with
  | O => false
  | S n' =>
      if negb (String.eqb (slice p filenameIndex (filenameIndex + 1))
                          (String extsep EmptyString))
      then true
      else has_name_before_dot p (filenameIndex + 1) n'
  end.

(** [os.path.splitext(p)] ([posixpath]: separator [/], no alternative
    separator, extension separator [.]). *)
Definition splitext (p : string) : string * string :=
  let sepIndex := rfind sep p in
  let dotIndex := rfind extsep p in
  if (dotIndex >? sepIndex)
     && has_name_before_dot p (sepIndex + 1) (Z.to_nat (dotIndex - (sepIndex + 1)))
  then (take p dotIndex, drop p dotIndex)
  else (p, EmptyString).

(** [s] is made of ASCII characters (codes below 128). *)
Fixpoint is_ascii (s : string) : bool :=
  match s with
  | EmptyString => true
  | String c s' => Nat.ltb (nat_of_ascii c) 128 && is_ascii s'
  end.

(** [c.lower()] for an ASCII character [c]: the letters [A-Z] go to [a-z],
    every other ASCII character stays. A code from 128 up is left as it is,
    which is not what Python does with a cased letter outside ASCII. *)
Definition lower_char (c : ascii) : ascii :=
  let n := nat_of_ascii c in
  if (Nat.leb 65 n && Nat.leb n 90)%bool then ascii_of_nat (n + 32) else c.

(** [s.lower()], exact when [is_ascii s]. On other strings the text may
    differ from Python's (an upper-case accented letter stays), but no
    character outside ASCII lowers to a letter of [.pdf], [.docx] or [.txt],
    so the comparisons of the selector come out the same. What is stated
    below about the text of a lowered string assumes [is_ascii]. *)
Fixpoint lower (s : string) : string :=
  match s with
  | EmptyString => EmptyString
  | String c s' => String (lower_char c) (lower s')
  end.

(** [c not in s] *)
Fixpoint free_of (c : ascii) (s : string) : bool :=
  match s with
  | EmptyString => true
  | String a s' => negb (Ascii.eqb a c) && free_of c s'
  end.

(** [needle in hay] *)
Definition contains (hay needle : string) : Prop :=
  exists pre post, hay = pre ++ needle ++ post.

End Str.

(** ** The external collaborators *)

(** The text splitter is external; the source only constructs it, from two
    integers, and hands it to the parser. It is represented by the two
    arguments of its constructor. *)
Record RecursiveCharacterTextSplitter : Type := mkSplitter {
  splitter_chunk_size : Z;
  splitter_chunk_overlap : Z
}.

(** What the code asks of its environment. [Document] is the record type of
    [langchain_core], [Parser] the type of the parser objects; constructing a
    parser and calling its methods may raise. *)
Record World (Document Parser : Type) : Type := mkWorld {
  path_exists : string -> bool;                       (* os.path.exists *)
  PyPDFLoader : string -> result Parser;
  Docx2txtLoader : string -> result Parser;
  TextLoader : string -> result Parser;
  parser_load : Parser -> result (list Document);      (* loader.load() *)
  parser_load_and_split :                              (* loader.load_and_split(text_splitter=...) *)
    Parser -> RecursiveCharacterTextSplitter -> result (list Document)
}.
Arguments path_exists {Document Parser} _ _.
Arguments PyPDFLoader {Document Parser} _ _.
Arguments Docx2txtLoader {Document Parser} _ _.
Arguments TextLoader {Document Parser} _ _.
Arguments parser_load {Document Parser} _ _.
Arguments parser_load_and_split {Document Parser} _ _ _.

(** ** Loaders *)

Section Loaders.

Context {Document Parser : Type}.
Variable W : World Document Parser.

(** The three concrete subclasses of [DocumentLoader]; each instance holds
    [self.file_path] and [self.loader]. *)
Inductive DocumentLoader : Type :=
| PDFDocumentLoader (file_path : string) (loader : Parser)
| DOCXDocumentLoader (file_path : string) (loader : Parser)
| TXTDocumentLoader (file_path : string) (loader : Parser).

Definition file_path (l : DocumentLoader) : string :=
  match l with
  | PDFDocumentLoader p _ | DOCXDocumentLoader p _ | TXTDocumentLoader p _ => p
  end.

Definition loader (l : DocumentLoader) : Parser :=
  match l with
  | PDFDocumentLoader _ h | DOCXDocumentLoader _ h | TXTDocumentLoader _ h => h
  end.

Definition file_not_found (file_path : string) : exn :=
  Exn.Raise Exn.FileNotFoundError ("File not found: " ++ file_path).

Definition file_load_error (prefix : string) (e : exn) : exn :=
  Exn.Raise Exn.FileLoadError (prefix ++ Exn.str e).

(** [PDFDocumentLoader.__init__] *)
Definition PDFDocumentLoader_init (file_path : string) : result DocumentLoader :=
  if negb (path_exists W file_path) then Err (file_not_found file_path)
  else rbind (PyPDFLoader W file_path) (fun h => Ok (PDFDocumentLoader file_path h)).

(** [DOCXDocumentLoader.__init__] *)
Definition DOCXDocumentLoader_init (file_path : string) : result DocumentLoader :=
  if negb (path_exists W file_path) then Err (file_not_found file_path)
  else rbind (Docx2txtLoader W file_path) (fun h => Ok (DOCXDocumentLoader file_path h)).

(** [TXTDocumentLoader.__init__] *)
Definition TXTDocumentLoader_init (file_path : string) : result DocumentLoader :=
  if negb (path_exists W file_path) then Err (file_not_found file_path)
  else rbind (TextLoader W file_path) (fun h => Ok (TXTDocumentLoader file_path h)).

(** The message prefixes of the six [except Exception] clauses. *)
Definition load_prefix (l : DocumentLoader) : string :=
  match l with
  | PDFDocumentLoader _ _ => "Error loading PDF file: "
  | DOCXDocumentLoader _ _ => "Error loading DOCX file: "
  | TXTDocumentLoader _ _ => "Error loading TXT file: "
  end.

Definition load_and_split_prefix (l : DocumentLoader) : string :=
  match l with
  | PDFDocumentLoader _ _ => "Error loading and splitting PDF file: "
  | DOCXDocumentLoader _ _ => "Error loading and splitting DOCX file: "
  | TXTDocumentLoader _ _ => "Error loading and splitting TXT file: "
  end.

(** [load], dispatched on the class of [self]. *)
Definition load (self : DocumentLoader) : result (list Document) :=
  match self with
  | PDFDocumentLoader _ h =>
      try_except (parser_load W h)
        (fun e => Err (file_load_error "Error loading PDF file: " e))
  | DOCXDocumentLoader _ h =>
      try_except (parser_load W h)
        (fun e => Err (file_load_error "Error loading DOCX file: " e))
  | TXTDocumentLoader _ h =>
      try_except (parser_load W h)
        (fun e => Err (file_load_error "Error loading TXT file: " e))
  end.

(** [load_and_split], dispatched on the class of [self]. *)
Definition load_and_split (self : DocumentLoader)
    (text_splitter : RecursiveCharacterTextSplitter) : result (list Document) :=
  match self with
  | PDFDocumentLoader _ h =>
      try_except (parser_load_and_split W h text_splitter)
        (fun e => Err (file_load_error "Error loading and splitting PDF file: " e))
  | DOCXDocumentLoader _ h =>
      try_except (parser_load_and_split W h text_splitter)
        (fun e => Err (file_load_error "Error loading and splitting DOCX file: " e))
  | TXTDocumentLoader _ h =>
      try_except (parser_load_and_split W h text_splitter)
        (fun e => Err (file_load_error "Error loading and splitting TXT file: " e))
  end.

(** ** The selector *)

(** The extension the selector dispatches on:
    [_, ext = os.path.splitext(file_path); ext = ext.lower()]. *)
Definition ext_of (file_path : string) : string :=
  Str.lower (snd (Str.splitext file_path)).

(** [DocumentLoaderFactory.create_loader] *)
Definition create_loader (file_path : string) : result DocumentLoader :=
  if negb (path_exists W file_path) then Err (file_not_found file_path)
  else
    let ext := ext_of file_path in
    if String.eqb ext ".pdf" then PDFDocumentLoader_init file_path
    else if String.eqb ext ".docx" then DOCXDocumentLoader_init file_path
    else if String.eqb ext ".txt" then TXTDocumentLoader_init file_path
    else Err (Exn.Raise Exn.UnsupportedFileTypeError ("Unsupported file type: " ++ ext)).

End Loaders.

Arguments DocumentLoader : clear implicits.

(** ** Methods of objects with state

    A method of an object whose attributes are [S] maps the attributes before
    the call to the outcome of the call and the attributes after it. *)

Definition Method (S A : Type) : Type := S -> result A * S.

Definition mret {S A} (a : A) : Method S A := fun s => (Ok a, s).

Definition mraise {S A} (e : exn) : Method S A := fun s => (Err e, s).

Definition mbind {S A B} (m : Method S A) (k : A -> Method S B) : Method S B :=
  fun s =>
    match m s with
    | (Ok a, s') => k a s'
    | (Err e, s') => (Err e, s')
    end.

(** Read the attributes of [self]. *)
Definition mself {S} : Method S S := fun s => (Ok s, s).

(** A call that touches no attribute of [self]. *)
Definition mlift {S A} (r : result A) : Method S A := fun s => (r, s).

(** [try: m  except ... as e: h(e)]; the handler starts from the attributes
    the body left. *)
Definition mtry {S A} (m : Method S A) (h : exn -> Method S A) : Method S A :=
  fun s =>
    match m s with
    | (Ok a, s') => (Ok a, s')
    | (Err e, s') => h e s'
    end.

(** [n] calls of a method in a row on the same object: the outcomes in
    order, and the attributes after the last call. *)
Fixpoint call_times {S A} (m : Method S A) (n : nat) (s : S) : list (result A) * S :=
  match n with
  | O => ([], s)
  | Datatypes.S n' =>
      let (r, s') := m s in
      let (rs, s'') := call_times m n' s' in
      (r :: rs, s'')
  end.

Declare Scope method_scope.
Delimit Scope method_scope with method.
Notation "x <- m ;; k" := (mbind m (fun x => k))
  (at level 61, m at next level, right associativity) : method_scope.

(** ** Processing configuration *)

Record DocumentProcessorConfig : Type := mkConfig {
  chunk_size : Z;
  chunk_overlap : Z
}.

Definition invalid_configuration (msg : string) : exn :=
  Exn.Raise Exn.InvalidConfigurationError msg.

(** The body of [DocumentProcessorConfig.__init__]. *)
Definition DocumentProcessorConfig_init (chunk_size chunk_overlap : Z)
  : result DocumentProcessorConfig :=
  if chunk_size <=? 0 then
    Err (invalid_configuration "chunk_size must be positive")
  else if chunk_overlap <? 0 then
    Err (invalid_configuration "chunk_overlap cannot be negative")
  else if chunk_overlap >=? chunk_size then
    Err (invalid_configuration "chunk_overlap must be smaller than chunk_size")
  else Ok (mkConfig chunk_size chunk_overlap).

(** [DocumentProcessorConfig(chunk_size, chunk_overlap)]; [None] is an
    argument left out, which takes its default ([chunk_size = 100],
    [chunk_overlap = 20]). *)
Definition DocumentProcessorConfig_new (chunk_size chunk_overlap : option Z)
  : result DocumentProcessorConfig :=
  DocumentProcessorConfig_init
    (match chunk_size with Some n => n | None => 100 end)
    (match chunk_overlap with Some n => n | None => 20 end).

(** [DocumentProcessorConfig.create_text_splitter] *)
Definition create_text_splitter
  : Method DocumentProcessorConfig RecursiveCharacterTextSplitter :=
  (self <- mself ;;
   mret (mkSplitter (chunk_size self) (chunk_overlap self)))%method.

(** ** The facade *)

(** A [DocumentProcessor] holds [self.config]. *)
Record DocumentProcessor : Type := mkProcessor {
  config : DocumentProcessorConfig
}.

(** [DocumentProcessor.__init__]: [self.config = config or DocumentProcessorConfig()]
    (a configuration object is always truthy). *)
Definition DocumentProcessor_init (config : option DocumentProcessorConfig)
  : result DocumentProcessor :=
  match config with
  | Some c => Ok (mkProcessor c)
  | None => rbind (DocumentProcessorConfig_new None None) (fun c => Ok (mkProcessor c))
  end.

(** A method call on [self.config] from a method of the processor. *)
Definition on_config {A} (m : Method DocumentProcessorConfig A)
  : Method DocumentProcessor A :=
  fun self => let (r, c) := m (config self) in (r, mkProcessor c).

(** The splitter [create_text_splitter] builds from the configuration the
    processor holds. *)
Definition splitter_of (self : DocumentProcessor) : RecursiveCharacterTextSplitter :=
  mkSplitter (chunk_size (config self)) (chunk_overlap (config self)).

Section Facade.

Context {Document Parser : Type}.
Variable W : World Document Parser.

(** The [try] block of [process_document]. *)
Definition process_document_body (file_path : string) (split : bool)
  : Method DocumentProcessor (list Document) :=
  (loader <- mlift (create_loader W file_path) ;;
   if split then
     text_splitter <- on_config create_text_splitter ;;
     mlift (load_and_split W loader text_splitter)
   else
     mlift (load W loader))%method.

(** The three [except] clauses of [process_document], tried in order. *)
Definition process_document_except (e : exn)
  : Method DocumentProcessor (list Document) :=
  match Exn.class e with
  | Exn.FileNotFoundError =>
      mraise (file_load_error "Document processing failed: " e)
  | Exn.UnsupportedFileTypeError =>
      mraise (file_load_error "Document processing failed: " e)
  | _ =>
      mraise (file_load_error "Unexpected error during document processing: " e)
  end.

(** [DocumentProcessor.process_document]; [split] is the argument
    [load_and_split]. *)
Definition process_document (file_path : string) (split : bool)
  : Method DocumentProcessor (list Document) :=
  mtry (process_document_body file_path split) process_document_except.

(** [process_document(file_path)], [load_and_split] left to its default. *)
Definition process_document_default (file_path : string)
  : Method DocumentProcessor (list Document) :=
  process_document file_path true.

(** The calls a client can make on a processor and its configuration. *)
Inductive call : Type :=
| CreateTextSplitter
| ProcessDocument (file_path : string) (split : bool).

(** The attributes of the processor after one call, and after a sequence of
    calls, whatever their outcomes. *)
Definition after_call (self : DocumentProcessor) (c : call) : DocumentProcessor :=
  match c with
  | CreateTextSplitter => snd (on_config create_text_splitter self)
  | ProcessDocument p b => snd (process_document p b self)
  end.

Definition after_calls (self : DocumentProcessor) (cs : list call) : DocumentProcessor :=
  fold_left after_call cs self.

End Facade.

(** ** The script under [if __name__ == "__main__"] *)

(** [str(len(docs))], as an f-string prints it. *)
Definition str_of_len {A} (docs : list A) : string :=
  NilEmpty.string_of_uint (Nat.to_uint (List.length docs)).

(** The processor the script builds:
    [DocumentProcessor(DocumentProcessorConfig(chunk_size=150, chunk_overlap=30))]. *)
Definition main_processor : DocumentProcessor := mkProcessor (mkConfig 150 30).

(** The three [print] at the end of the [try] block. *)
Definition loaded_lines {A} (pdf_docs docx_docs txt_docs : list A) : list string :=
  ["Loaded " ++ str_of_len pdf_docs ++ " PDF document chunks";
   "Loaded " ++ str_of_len docx_docs ++ " DOCX documents (unsplit)";
   "Loaded " ++ str_of_len txt_docs ++ " TXT document chunks"].

Section Main.

Context {Document Parser : Type}.
Variable W : World Document Parser.

(** The three calls on [processor] and the three [print] that follow them;
    the value is the list of the lines printed. *)
Definition main_calls : Method DocumentProcessor (list string) :=
  (pdf_docs <- process_document_default W "/path/to/document.pdf" ;;
   docx_docs <- process_document W "/path/to/document.docx" false ;;
   txt_docs <- process_document_default W "/path/to/document.txt" ;;
   mret (loaded_lines pdf_docs docx_docs txt_docs))%method.

(** The [try] block: configuration, processor, then the calls. *)
Definition main_body : result (list string) :=
  rbind (DocumentProcessorConfig_new (Some 150) (Some 30)) (fun config =>
  rbind (DocumentProcessor_init (Some config)) (fun processor =>
  fst (main_calls processor))).

(** The script: the lines it prints, the [try] block's on success, the line
    of the first matching [except] clause otherwise. *)
Definition main : list string :=
  match main_body with
  | Ok printed => printed
  | Err e =>
      match Exn.class e with
      | Exn.FileLoadError => ["Error processing document: " ++ Exn.str e]
      | Exn.InvalidConfigurationError => ["Invalid configuration: " ++ Exn.str e]
      | _ => ["Unexpected error: " ++ Exn.str e]
      end
  end.

End Main.

(** ** Shapes of paths, to state what the selector does with them *)

(** [s] is made of periods only (the empty string is). *)
Fixpoint only_dots (s : string) : bool :=
  match s with
  | EmptyString => true
  | String c s' => Ascii.eqb c Str.extsep && only_dots s'
  end.

(** [dir] is a directory prefix: empty, or ending with the separator. *)
Definition dir_prefix (dir : string) : Prop :=
  dir = "" \/ exists d, dir = d ++ "/".

(** ** A small world to run the code in

    Four files exist; the parsers read three of them and fail on the fourth.
    A document and a parser object are both represented by a string. *)

Module Demo.

Definition files : list string :=
  ["/docs/report.PDF"; "/docs/letter.docx"; "/docs/notes.txt";
   "/docs/table.csv"; "/docs/broken.pdf"].

Definition exists_ (p : string) : bool := existsb (String.eqb p) files.

Definition parse (h : string) : result (list string) :=
  if String.eqb h "/docs/broken.pdf"
  then Err (Exn.Raise Exn.OtherException "EOF marker not found")
  else Ok ["text of " ++ h].

Definition parse_and_split (h : string) (ts : RecursiveCharacterTextSplitter)
  : result (list string) :=
  if String.eqb h "/docs/broken.pdf"
  then Err (Exn.Raise Exn.OtherException "EOF marker not found")
  else Ok ["first chunk of " ++ h; "second chunk of " ++ h].

Definition world : World string string :=
  mkWorld string string exists_ Ok Ok Ok parse parse_and_split.

(** A world where every path exists and every parser reads. *)
Definition full_world : World string string :=
  mkWorld string string (fun _ => true) Ok Ok Ok parse parse_and_split.

(** A world where the parser of a PDF file cannot be constructed. *)
Definition no_pdf_parser_world : World string string :=
  mkWorld string string exists_
    (fun p => Err (Exn.Raise Exn.OtherException ("File path " ++ p ++ " is not a valid file or url")))
    Ok Ok parse parse_and_split.

Definition cfg : DocumentProcessorConfig := mkConfig 150 30.

Definition processor : DocumentProcessor := mkProcessor cfg.

End Demo.

(** * Properties *)

(** ** [os.path.splitext] and [str.lower] on sample paths *)

Example splitext_pdf :
  Str.splitext "/path/to/document.pdf" = ("/path/to/document", ".pdf").
Proof. reflexivity. Qed.

Example splitext_two_dots :
  Str.splitext "archive.tar.GZ" = ("archive.tar", ".GZ").
Proof. reflexivity. Qed.

Example splitext_dotfile :
  Str.splitext "/home/u/.pdf" = ("/home/u/.pdf", "").
Proof. reflexivity. Qed.

Example splitext_dot_in_directory :
  Str.splitext "/data.d/report" = ("/data.d/report", "").
Proof. reflexivity. Qed.

Example splitext_leading_dots :
  Str.splitext "...txt" = ("...txt", "") /\
  Str.splitext "..a.txt" = ("..a", ".txt").
Proof. split; reflexivity. Qed.

Example lower_mixed : Str.lower ".PdF" = ".pdf".
Proof. reflexivity. Qed.

(** What the documentation of [os.path.splitext] promises: root and
    extension give the path back, and the extension is empty or starts with
    a period and has no other. *)

Lemma substring_all (s : string) : substring 0 (String.length s) s = s.
Proof. induction s as [|c s IH]; simpl; [reflexivity | now rewrite IH]. Qed.

Lemma append_empty (s : string) : s ++ "" = s.
Proof. induction s as [|c s IH]; simpl; [reflexivity | now rewrite IH]. Qed.

Lemma take_drop (p : string) (n : nat) :
  substring 0 n p ++ substring n (String.length p - n) p = p.
Proof.
  revert n. induction p as [|c p IH]; intros [|n]; simpl; try reflexivity.
  - now rewrite substring_all.
  - now rewrite IH.
Qed.

(** X1. Root and extension, put together again, are the path: the selector
    cuts the path, it drops and adds nothing. *)
Lemma splitext_root_ext (p : string) :
  fst (Str.splitext p) ++ snd (Str.splitext p) = p.
Proof.
  unfold Str.splitext.
  destruct (_ && _); simpl; [apply take_drop | apply append_empty].
Qed.

(** [rfind_from] keeps [last] when [c] does not occur; otherwise it gives
    the index of an occurrence of [c] after which there is no other. *)
Lemma rfind_from_spec (c : ascii) (s : string) (i last : Z) :
  (Str.rfind_from c s i last = last /\ Str.free_of c s = true)
  \/ exists k rest,
       (k < String.length s)%nat
       /\ Str.rfind_from c s i last = i + Z.of_nat k
       /\ substring k (String.length s - k) s = String c rest
       /\ Str.free_of c rest = true.
Proof.
  revert i last. induction s as [|a s IH]; intros i last; simpl.
  - left. split; reflexivity.
  - destruct (Ascii.eqb_spec a c) as [->|Hne].
    + destruct (IH (i + 1) i) as [[E F]|[k [rest [Hk [E [Hsub F]]]]]].
      * right. exists 0%nat, s. rewrite E. simpl. rewrite substring_all.
        repeat split; try lia. exact F.
      * right. exists (S k), rest. rewrite E. simpl.
        repeat split; try lia; assumption.
    + destruct (IH (i + 1) last) as [[E F]|[k [rest [Hk [E [Hsub F]]]]]].
      * left. rewrite E, F. split; reflexivity.
      * right. exists (S k), rest. rewrite E. simpl.
        repeat split; try lia; assumption.
Qed.

(** X2. The extension the selector reads is empty, or it starts with a
    period and has no other period. *)
Lemma splitext_ext_shape (p : string) :
  snd (Str.splitext p) = ""
  \/ exists rest, snd (Str.splitext p) = String "."%char rest
                  /\ Str.free_of "."%char rest = true.
Proof.
  unfold Str.splitext.
  destruct (_ && _) eqn:E; simpl; [|left; reflexivity].
  right. apply andb_true_iff in E. destruct E as [Hgt _].
  unfold Str.rfind in *.
  destruct (rfind_from_spec Str.extsep p 0 (-1))
    as [[E F]|[k [rest [Hk [E [Hsub F]]]]]].
  - rewrite E in Hgt. exfalso.
    destruct (rfind_from_spec Str.sep p 0 (-1))
      as [[E' _]|[k' [_ [_ [E' _]]]]]; rewrite E' in Hgt; lia.
  - rewrite E. unfold Str.drop. simpl. rewrite Nat2Z.id.
    exists rest. split; assumption.
Qed.

(** ** Processing configuration *)

Lemma config_init_inv (s o : Z) (c : DocumentProcessorConfig) :
  DocumentProcessorConfig_init s o = Ok c ->
  c = mkConfig s o /\ 0 < s /\ 0 <= o < s.
Proof.
  unfold DocumentProcessorConfig_init.
  destruct (Z.leb_spec s 0); [discriminate|].
  destruct (Z.ltb_spec o 0); [discriminate|].
  destruct (Z.geb_spec o s); [discriminate|].
  intros Hok. inversion Hok. repeat split; lia.
Qed.

(** C2. Constructing a configuration raises [InvalidConfigurationError]
    exactly when [chunk_size <= 0], or [chunk_overlap < 0], or
    [chunk_overlap >= chunk_size]. The checks run in this order, so the first
    violated one gives the message; every other input constructs the
    configuration holding the two arguments. *)
Theorem config_init_validation (s o : Z) :
  ((exists e, DocumentProcessorConfig_init s o = Err e /\
              Exn.class e = Exn.InvalidConfigurationError)
   <-> (s <= 0 \/ o < 0 \/ o >= s))
  /\ (s <= 0 ->
      DocumentProcessorConfig_init s o =
      Err (Exn.Raise Exn.InvalidConfigurationError "chunk_size must be positive"))
  /\ (0 < s -> o < 0 ->
      DocumentProcessorConfig_init s o =
      Err (Exn.Raise Exn.InvalidConfigurationError "chunk_overlap cannot be negative"))
  /\ (0 < s -> 0 <= o -> o >= s ->
      DocumentProcessorConfig_init s o =
      Err (Exn.Raise Exn.InvalidConfigurationError
             "chunk_overlap must be smaller than chunk_size"))
  /\ (~ (s <= 0 \/ o < 0 \/ o >= s) ->
      DocumentProcessorConfig_init s o = Ok (mkConfig s o))
  /\ (forall e, DocumentProcessorConfig_init s o = Err e ->
      Exn.class e = Exn.InvalidConfigurationError).
Proof.
  unfold DocumentProcessorConfig_init, invalid_configuration.
  destruct (Z.leb_spec s 0) as [Hs|Hs];
    [|destruct (Z.ltb_spec o 0) as [Ho|Ho];
      [|destruct (Z.geb_spec o s) as [Hos|Hos]]].
  all: repeat split; intros; try lia; try reflexivity; try discriminate.
  all: try (eexists; split; [reflexivity|reflexivity]).
  all: try match goal with
           | H : Err _ = Err _ |- _ => inversion H; reflexivity
           | H : exists _, _ /\ _ |- _ => destruct H as [? [? _]]; discriminate
           end.
Qed.

Lemma config_init_validation_witness :
  DocumentProcessorConfig_init 0 (-1) =
    Err (Exn.Raise Exn.InvalidConfigurationError "chunk_size must be positive")
  /\ DocumentProcessorConfig_init 10 (-1) =
    Err (Exn.Raise Exn.InvalidConfigurationError "chunk_overlap cannot be negative")
  /\ DocumentProcessorConfig_init 10 10 =
    Err (Exn.Raise Exn.InvalidConfigurationError
           "chunk_overlap must be smaller than chunk_size")
  /\ DocumentProcessorConfig_init 100 20 = Ok (mkConfig 100 20).
Proof.
  split; [|split; [|split]].
  - apply (proj1 (proj2 (config_init_validation 0 (-1)))). lia.
  - apply (proj1 (proj2 (proj2 (config_init_validation 10 (-1))))); lia.
  - apply (proj1 (proj2 (proj2 (proj2 (config_init_validation 10 10))))); lia.
  - apply (proj1 (proj2 (proj2 (proj2 (proj2 (config_init_validation 100 20)))))); lia.
Defined.

(** ** The selector and the loaders *)

Section SelectorFacts.

Context {Document Parser : Type}.
Variable W : World Document Parser.

Lemma create_loader_existing (p : string) :
  path_exists W p = true ->
  create_loader W p =
    if String.eqb (ext_of p) ".pdf" then rbind (PyPDFLoader W p) (fun h => Ok (PDFDocumentLoader p h))
    else if String.eqb (ext_of p) ".docx" then rbind (Docx2txtLoader W p) (fun h => Ok (DOCXDocumentLoader p h))
    else if String.eqb (ext_of p) ".txt" then rbind (TextLoader W p) (fun h => Ok (TXTDocumentLoader p h))
    else Err (Exn.Raise Exn.UnsupportedFileTypeError ("Unsupported file type: " ++ ext_of p)).
Proof.
  intros E. unfold create_loader, PDFDocumentLoader_init, DOCXDocumentLoader_init,
    TXTDocumentLoader_init. rewrite E. reflexivity.
Qed.

(** What a loader raises is a [FileLoadError]. *)
Lemma load_raises_file_load_error (l : DocumentLoader Parser) (e : exn) :
  load W l = Err e -> Exn.class e = Exn.FileLoadError.
Proof.
  destruct l as [p h|p h|p h]; simpl; destruct (parser_load W h); simpl;
    intros H; inversion H; reflexivity.
Qed.

Lemma load_and_split_raises_file_load_error
    (l : DocumentLoader Parser) (ts : RecursiveCharacterTextSplitter) (e : exn) :
  load_and_split W l ts = Err e -> Exn.class e = Exn.FileLoadError.
Proof.
  destruct l as [p h|p h|p h]; simpl;
    destruct (parser_load_and_split W h ts); simpl;
    intros H; inversion H; reflexivity.
Qed.

End SelectorFacts.

Lemma contains_suffix (prefix s : string) : Str.contains (prefix ++ s) s.
Proof.
  exists prefix, EmptyString. now rewrite append_empty.
Qed.

(** C3, as the code has it. For a path that exists, whose extension,
    lowered, is [.pdf], [.docx] or [.txt], and on which the matching external
    parser is constructed without error, the selector returns the loader of
    the matching class, holding that path and that parser object. *)
Theorem create_loader_supported {Document Parser : Type}
    (W : World Document Parser) (p : string) (h : Parser) :
  path_exists W p = true ->
  (ext_of p = ".pdf" -> PyPDFLoader W p = Ok h ->
     create_loader W p = Ok (PDFDocumentLoader p h))
  /\ (ext_of p = ".docx" -> Docx2txtLoader W p = Ok h ->
     create_loader W p = Ok (DOCXDocumentLoader p h))
  /\ (ext_of p = ".txt" -> TextLoader W p = Ok h ->
     create_loader W p = Ok (TXTDocumentLoader p h))
  /\ (forall l, create_loader W p = Ok l -> file_path l = p).
Proof.
  intros E. rewrite (create_loader_existing W p E).
  repeat split.
  - intros -> ->. reflexivity.
  - intros -> ->. reflexivity.
  - intros -> ->. reflexivity.
  - intros l.
    destruct (String.eqb (ext_of p) ".pdf");
      [destruct (PyPDFLoader W p); simpl; intros H; inversion H; reflexivity|].
    destruct (String.eqb (ext_of p) ".docx");
      [destruct (Docx2txtLoader W p); simpl; intros H; inversion H; reflexivity|].
    destruct (String.eqb (ext_of p) ".txt");
      [destruct (TextLoader W p); simpl; intros H; inversion H; reflexivity|].
    discriminate.
Qed.

Lemma create_loader_supported_witness :
  create_loader Demo.world "/docs/report.PDF"
    = Ok (PDFDocumentLoader "/docs/report.PDF" "/docs/report.PDF")
  /\ create_loader Demo.world "/docs/letter.docx"
    = Ok (DOCXDocumentLoader "/docs/letter.docx" "/docs/letter.docx")
  /\ create_loader Demo.world "/docs/notes.txt"
    = Ok (TXTDocumentLoader "/docs/notes.txt" "/docs/notes.txt").
Proof.
  split; [|split].
  - apply (proj1 (create_loader_supported Demo.world "/docs/report.PDF"
                    "/docs/report.PDF" eq_refl)); reflexivity.
  - apply (proj1 (proj2 (create_loader_supported Demo.world "/docs/letter.docx"
                    "/docs/letter.docx" eq_refl))); reflexivity.
  - apply (proj1 (proj2 (proj2 (create_loader_supported Demo.world "/docs/notes.txt"
                    "/docs/notes.txt" eq_refl)))); reflexivity.
Defined.

(** C4, as the code has it. For a path that exists and whose extension,
    lowered, is none of [.pdf], [.docx], [.txt], the selector raises
    [UnsupportedFileTypeError], naming the lowered extension. *)
Theorem create_loader_unsupported {Document Parser : Type}
    (W : World Document Parser) (p : string) :
  path_exists W p = true ->
  ext_of p <> ".pdf" -> ext_of p <> ".docx" -> ext_of p <> ".txt" ->
  create_loader W p =
    Err (Exn.Raise Exn.UnsupportedFileTypeError ("Unsupported file type: " ++ ext_of p)).
Proof.
  intros E Hpdf Hdocx Htxt. rewrite (create_loader_existing W p E).
  apply String.eqb_neq in Hpdf, Hdocx, Htxt.
  rewrite Hpdf, Hdocx, Htxt. reflexivity.
Qed.

Lemma create_loader_unsupported_witness :
  create_loader Demo.world "/docs/table.csv" =
    Err (Exn.Raise Exn.UnsupportedFileTypeError "Unsupported file type: .csv").
Proof.
  apply (create_loader_unsupported Demo.world "/docs/table.csv");
    [reflexivity | discriminate | discriminate | discriminate].
Defined.

(** C3, as stated, fails: on an existing path with the extension [.pdf] the
    selector raises what the constructor of the external parser raises, since
    no loader class catches it. *)
Lemma create_loader_supported_parser_fails :
  path_exists Demo.no_pdf_parser_world "/docs/report.PDF" = true
  /\ ext_of "/docs/report.PDF" = ".pdf"
  /\ create_loader Demo.no_pdf_parser_world "/docs/report.PDF" =
       Err (Exn.Raise Exn.OtherException
              "File path /docs/report.PDF is not a valid file or url")
  /\ ~ (forall (W : World string string) (p : string),
          path_exists W p = true ->
          ext_of p = ".pdf" \/ ext_of p = ".docx" \/ ext_of p = ".txt" ->
          exists l, create_loader W p = Ok l).
Proof.
  repeat split; try reflexivity.
  intros H.
  destruct (H Demo.no_pdf_parser_world "/docs/report.PDF" eq_refl
              (or_introl eq_refl)) as [l Hl].
  discriminate.
Qed.

(** C4, as stated, fails: a path with another extension that does not exist
    gets [FileNotFoundError], because existence is checked first. *)
Lemma create_loader_unsupported_missing_path :
  ext_of "/docs/absent.xyz" = ".xyz"
  /\ path_exists Demo.world "/docs/absent.xyz" = false
  /\ create_loader Demo.world "/docs/absent.xyz" =
       Err (Exn.Raise Exn.FileNotFoundError "File not found: /docs/absent.xyz")
  /\ ~ (forall (W : World string string) (p : string),
          ext_of p <> ".pdf" -> ext_of p <> ".docx" -> ext_of p <> ".txt" ->
          exists m, create_loader W p = Err (Exn.Raise Exn.UnsupportedFileTypeError m)).
Proof.
  repeat split; try reflexivity.
  intros H.
  destruct (H Demo.world "/docs/absent.xyz") as [m Hm]; try discriminate.
Qed.

(** C5. For a path that does not exist, the selector raises
    [FileNotFoundError], and so does the constructor of each of the three
    loader classes called on that path. *)
Theorem missing_path_file_not_found {Document Parser : Type}
    (W : World Document Parser) (p : string) :
  path_exists W p = false ->
  create_loader W p = Err (Exn.Raise Exn.FileNotFoundError ("File not found: " ++ p))
  /\ PDFDocumentLoader_init W p
      = Err (Exn.Raise Exn.FileNotFoundError ("File not found: " ++ p))
  /\ DOCXDocumentLoader_init W p
      = Err (Exn.Raise Exn.FileNotFoundError ("File not found: " ++ p))
  /\ TXTDocumentLoader_init W p
      = Err (Exn.Raise Exn.FileNotFoundError ("File not found: " ++ p)).
Proof.
  intros E.
  unfold create_loader, PDFDocumentLoader_init, DOCXDocumentLoader_init,
    TXTDocumentLoader_init, file_not_found.
  rewrite E. simpl. repeat split.
Qed.

Lemma missing_path_file_not_found_witness :
  create_loader Demo.world "/docs/absent.pdf"
    = Err (Exn.Raise Exn.FileNotFoundError "File not found: /docs/absent.pdf")
  /\ PDFDocumentLoader_init Demo.world "/docs/absent.pdf"
    = Err (Exn.Raise Exn.FileNotFoundError "File not found: /docs/absent.pdf")
  /\ DOCXDocumentLoader_init Demo.world "/docs/absent.pdf"
    = Err (Exn.Raise Exn.FileNotFoundError "File not found: /docs/absent.pdf")
  /\ TXTDocumentLoader_init Demo.world "/docs/absent.pdf"
    = Err (Exn.Raise Exn.FileNotFoundError "File not found: /docs/absent.pdf").
Proof.
  apply (missing_path_file_not_found Demo.world "/docs/absent.pdf"). reflexivity.
Defined.

(** What a loader does with an error of its parser. *)
Lemma loader_wraps_parser_errors_aux {Document Parser : Type}
    (W : World Document Parser) (l : DocumentLoader Parser)
    (ts : RecursiveCharacterTextSplitter) :
  (forall e, parser_load W (loader l) = Err e ->
     load W l = Err (Exn.Raise Exn.FileLoadError (load_prefix l ++ Exn.str e)))
  /\ (forall e, parser_load_and_split W (loader l) ts = Err e ->
     load_and_split W l ts
       = Err (Exn.Raise Exn.FileLoadError (load_and_split_prefix l ++ Exn.str e))).
Proof.
  split; intros e E; destruct l as [p h|p h|p h]; simpl in *; rewrite E;
    reflexivity.
Qed.

(** C6. Whatever the class of the loader: when the external parser raises
    [e] in [load] or in [load_and_split], the loader raises [FileLoadError]
    with a message that ends with [str(e)], so contains it; when the parser
    returns, the loader returns the very same list of documents. *)
Theorem loader_wraps_parser_errors {Document Parser : Type}
    (W : World Document Parser) (l : DocumentLoader Parser)
    (ts : RecursiveCharacterTextSplitter) :
  (forall e, parser_load W (loader l) = Err e ->
     load W l = Err (Exn.Raise Exn.FileLoadError (load_prefix l ++ Exn.str e))
     /\ Str.contains (load_prefix l ++ Exn.str e) (Exn.str e))
  /\ (forall e, parser_load_and_split W (loader l) ts = Err e ->
     load_and_split W l ts
       = Err (Exn.Raise Exn.FileLoadError (load_and_split_prefix l ++ Exn.str e))
     /\ Str.contains (load_and_split_prefix l ++ Exn.str e) (Exn.str e))
  /\ (forall docs, parser_load W (loader l) = Ok docs -> load W l = Ok docs)
  /\ (forall docs, parser_load_and_split W (loader l) ts = Ok docs ->
     load_and_split W l ts = Ok docs).
Proof.
  split; [|split; [|split]].
  - intros e E. split; [|apply contains_suffix].
    destruct l as [p h|p h|p h]; simpl in *; rewrite E; reflexivity.
  - intros e E. split; [|apply contains_suffix].
    destruct l as [p h|p h|p h]; simpl in *; rewrite E; reflexivity.
  - intros docs E.
    destruct l as [p h|p h|p h]; simpl in *; rewrite E; reflexivity.
  - intros docs E.
    destruct l as [p h|p h|p h]; simpl in *; rewrite E; reflexivity.
Qed.

Lemma loader_wraps_parser_errors_witness :
  load Demo.world (PDFDocumentLoader "/docs/broken.pdf" "/docs/broken.pdf")
    = Err (Exn.Raise Exn.FileLoadError "Error loading PDF file: EOF marker not found")
  /\ load Demo.world (TXTDocumentLoader "/docs/notes.txt" "/docs/notes.txt")
    = Ok ["text of /docs/notes.txt"].
Proof.
  split.
  - apply (proj1 (loader_wraps_parser_errors Demo.world
             (PDFDocumentLoader "/docs/broken.pdf" "/docs/broken.pdf")
             (mkSplitter 150 30))
             (Exn.Raise Exn.OtherException "EOF marker not found") eq_refl).
  - apply (proj1 (proj2 (proj2 (loader_wraps_parser_errors Demo.world
             (TXTDocumentLoader "/docs/notes.txt" "/docs/notes.txt")
             (mkSplitter 150 30))))).
    reflexivity.
Defined.

(** ** The facade *)

Section FacadeFacts.

Context {Document Parser : Type}.
Variable W : World Document Parser.

Lemma on_config_create_text_splitter (self : DocumentProcessor) :
  on_config create_text_splitter self = (Ok (splitter_of self), self).
Proof. destruct self as [c]. reflexivity. Qed.

(** The [try] block, call by call. *)
Lemma process_document_body_eq (p : string) (b : bool) (self : DocumentProcessor) :
  process_document_body W p b self =
    match create_loader W p with
    | Err e => (Err e, self)
    | Ok l => (if b then load_and_split W l (splitter_of self) else load W l, self)
    end.
Proof.
  unfold process_document_body, mbind, mlift.
  destruct (create_loader W p) as [l|e]; [|reflexivity].
  destruct b; [|reflexivity].
  rewrite on_config_create_text_splitter. reflexivity.
Qed.

Lemma process_document_eq (p : string) (b : bool) (self : DocumentProcessor) :
  process_document W p b self =
    match fst (process_document_body W p b self) with
    | Ok docs => (Ok docs, self)
    | Err e => process_document_except e self
    end.
Proof.
  unfold process_document, mtry. rewrite process_document_body_eq.
  destruct (create_loader W p) as [l|e]; simpl; [|reflexivity].
  destruct (if b then load_and_split W l (splitter_of self) else load W l);
    reflexivity.
Qed.

Lemma process_document_except_class (e : exn) (self : DocumentProcessor) :
  exists m, process_document_except (Document := Document) e self
            = (Err (Exn.Raise Exn.FileLoadError m), self).
Proof.
  unfold process_document_except, mraise, file_load_error.
  destruct (Exn.class e); eexists; reflexivity.
Qed.

(** No call changes the attributes of the processor. *)
Lemma process_document_keeps_self (p : string) (b : bool) (self : DocumentProcessor) :
  snd (process_document W p b self) = self.
Proof.
  rewrite process_document_eq.
  destruct (fst (process_document_body W p b self)) as [docs|e]; [reflexivity|].
  destruct (process_document_except_class e self) as [m ->]. reflexivity.
Qed.

Lemma after_call_keeps_self (self : DocumentProcessor) (c : call) :
  after_call W self c = self.
Proof.
  destruct c as [|p b]; unfold after_call.
  - rewrite on_config_create_text_splitter. reflexivity.
  - apply process_document_keeps_self.
Qed.

Lemma after_calls_keeps_self (cs : list call) (self : DocumentProcessor) :
  after_calls W self cs = self.
Proof.
  unfold after_calls. induction cs as [|c cs IH]; simpl; [reflexivity|].
  rewrite after_call_keeps_self. exact IH.
Qed.

End FacadeFacts.

(** C1. In [process_document]: when the selector raises
    [FileNotFoundError] or [UnsupportedFileTypeError], the call raises
    [FileLoadError] with the message "Document processing failed: " followed
    by the message of that error; when the [try] block raises anything else,
    the call raises [FileLoadError] with "Unexpected error during document
    processing: " followed by the message of that error; whatever the call
    raises is a [FileLoadError], so neither of the two selection errors
    leaves the facade. The [try] block raises one of the two selection errors
    only when the selector did. *)
Theorem process_document_error_policy {Document Parser : Type}
    (W : World Document Parser) (self : DocumentProcessor)
    (p : string) (b : bool) :
  (forall e, create_loader W p = Err e ->
     Exn.class e = Exn.FileNotFoundError \/
     Exn.class e = Exn.UnsupportedFileTypeError ->
     process_document W p b self =
       (Err (Exn.Raise Exn.FileLoadError
               ("Document processing failed: " ++ Exn.str e)), self))
  /\ (forall e, fst (process_document_body W p b self) = Err e ->
     Exn.class e <> Exn.FileNotFoundError ->
     Exn.class e <> Exn.UnsupportedFileTypeError ->
     process_document W p b self =
       (Err (Exn.Raise Exn.FileLoadError
               ("Unexpected error during document processing: " ++ Exn.str e)),
        self))
  /\ (forall e, fst (process_document W p b self) = Err e ->
     Exn.class e = Exn.FileLoadError
     /\ Exn.class e <> Exn.FileNotFoundError
     /\ Exn.class e <> Exn.UnsupportedFileTypeError)
  /\ (forall e, fst (process_document_body W p b self) = Err e ->
     Exn.class e = Exn.FileNotFoundError \/
     Exn.class e = Exn.UnsupportedFileTypeError ->
     create_loader W p = Err e).
Proof.
  split; [|split; [|split]].
  - intros e E Hc. rewrite process_document_eq, process_document_body_eq, E.
    simpl. unfold process_document_except, mraise, file_load_error.
    destruct Hc as [-> | ->]; reflexivity.
  - intros e E Hf Hu. rewrite process_document_eq, E.
    unfold process_document_except, mraise, file_load_error.
    destruct (Exn.class e); try reflexivity; congruence.
  - intros e. rewrite process_document_eq.
    destruct (fst (process_document_body W p b self)) as [docs|e0];
      [discriminate|].
    destruct (process_document_except_class (Document := Document) e0 self)
      as [m ->].
    simpl. intros H. inversion H. simpl. repeat split; discriminate.
  - intros e. rewrite process_document_body_eq.
    destruct (create_loader W p) as [l|e0]; simpl; [|congruence].
    intros E Hc.
    assert (Exn.class e = Exn.FileLoadError) as Hl.
    { destruct b; [eapply load_and_split_raises_file_load_error
                  | eapply load_raises_file_load_error]; exact E. }
    rewrite Hl in Hc. destruct Hc; discriminate.
Qed.

Lemma process_document_error_policy_witness :
  process_document Demo.world "/docs/absent.pdf" true Demo.processor =
    (Err (Exn.Raise Exn.FileLoadError
            "Document processing failed: File not found: /docs/absent.pdf"),
     Demo.processor)
  /\ process_document Demo.world "/docs/table.csv" true Demo.processor =
    (Err (Exn.Raise Exn.FileLoadError
            "Document processing failed: Unsupported file type: .csv"),
     Demo.processor)
  /\ process_document Demo.world "/docs/broken.pdf" false Demo.processor =
    (Err (Exn.Raise Exn.FileLoadError
            "Unexpected error during document processing: Error loading PDF file: EOF marker not found"),
     Demo.processor).
Proof.
  split; [|split].
  - apply (proj1 (process_document_error_policy Demo.world Demo.processor
                    "/docs/absent.pdf" true)
             (Exn.Raise Exn.FileNotFoundError "File not found: /docs/absent.pdf")
             eq_refl (or_introl eq_refl)).
  - apply (proj1 (process_document_error_policy Demo.world Demo.processor
                    "/docs/table.csv" true)
             (Exn.Raise Exn.UnsupportedFileTypeError "Unsupported file type: .csv")
             eq_refl (or_intror eq_refl)).
  - apply (proj1 (proj2 (process_document_error_policy Demo.world Demo.processor
                    "/docs/broken.pdf" false))
             (Exn.Raise Exn.FileLoadError
                "Error loading PDF file: EOF marker not found")
             eq_refl); discriminate.
Defined.

(** C7. [process_document(file_path, load_and_split)] asks the selector for
    a loader. With [load_and_split] true (the default) it builds the splitter
    from the chunk size and overlap of the configuration it holds and its
    [try] block gives what the loader's [load_and_split] gives with that
    splitter; with [load_and_split] false the block gives what the loader's
    [load] gives. What the loader returns, the call returns, and it returns
    nothing else. *)
Theorem process_document_dispatch {Document Parser : Type}
    (W : World Document Parser) (self : DocumentProcessor)
    (p : string) (b : bool) :
  let ts := mkSplitter (chunk_size (config self)) (chunk_overlap (config self)) in
  on_config create_text_splitter self = (Ok ts, self)
  /\ (forall l, create_loader W p = Ok l ->
       process_document_body W p true self = (load_and_split W l ts, self)
       /\ process_document_body W p false self = (load W l, self)
       /\ (forall docs, load_and_split W l ts = Ok docs ->
             process_document W p true self = (Ok docs, self)
             /\ process_document_default W p self = (Ok docs, self))
       /\ (forall docs, load W l = Ok docs ->
             process_document W p false self = (Ok docs, self)))
  /\ (forall docs, fst (process_document W p b self) = Ok docs ->
       exists l, create_loader W p = Ok l
                 /\ (if b then load_and_split W l ts else load W l) = Ok docs).
Proof.
  intros ts. change ts with (splitter_of self).
  split; [apply on_config_create_text_splitter|split].
  - intros l E. unfold process_document_default.
    rewrite !process_document_eq, !process_document_body_eq, E. simpl.
    split; [reflexivity|split; [reflexivity|split]].
    + intros docs ->. split; reflexivity.
    + intros docs ->. reflexivity.
  - intros docs. rewrite process_document_eq, process_document_body_eq.
    destruct (create_loader W p) as [l|e]; simpl.
    + destruct (if b then load_and_split W l (splitter_of self) else load W l)
        as [docs'|e] eqn:E.
      * simpl. intros H. inversion H. subst. exists l. split; [reflexivity|exact E].
      * destruct (process_document_except_class (Document := Document) e self)
          as [m ->]. discriminate.
    + destruct (process_document_except_class (Document := Document) e self)
        as [m ->]. discriminate.
Qed.

Lemma process_document_dispatch_witness :
  process_document Demo.world "/docs/report.PDF" true Demo.processor =
    (Ok ["first chunk of /docs/report.PDF"; "second chunk of /docs/report.PDF"],
     Demo.processor)
  /\ process_document Demo.world "/docs/letter.docx" false Demo.processor =
    (Ok ["text of /docs/letter.docx"], Demo.processor).
Proof.
  split.
  - apply (proj1 (proj2 (proj2 (proj1 (proj2
             (process_document_dispatch Demo.world Demo.processor
                "/docs/report.PDF" true))
             (PDFDocumentLoader "/docs/report.PDF" "/docs/report.PDF") eq_refl)))
             _ eq_refl).
  - apply (proj2 (proj2 (proj2 (proj1 (proj2
             (process_document_dispatch Demo.world Demo.processor
                "/docs/letter.docx" false))
             (DOCXDocumentLoader "/docs/letter.docx" "/docs/letter.docx") eq_refl)))
             _ eq_refl).
Defined.

Lemma nonempty_prefix_differs (prefix m : string) :
  prefix <> EmptyString -> prefix ++ m <> m.
Proof.
  intros Hne E.
  assert (L : forall a b : string,
             String.length (a ++ b) = (String.length a + String.length b)%nat).
  { induction a as [|c a IH]; intros; simpl; [reflexivity | now rewrite IH]. }
  apply (f_equal String.length) in E. rewrite L in E.
  destruct prefix as [|c prefix]; [congruence|]. simpl in E. lia.
Qed.

(** C10. When the selector returned a loader and the external parser raises
    [e] inside [process_document], the loader's [FileLoadError] is caught by
    the last [except] clause: the call raises [FileLoadError] with
    "Unexpected error during document processing: " followed by the loader's
    message, itself the loader's prefix followed by [str(e)]. The message the
    caller gets is never the loader's message alone. *)
Theorem process_document_double_wraps {Document Parser : Type}
    (W : World Document Parser) (self : DocumentProcessor)
    (p : string) (l : DocumentLoader Parser) :
  create_loader W p = Ok l ->
  let ts := mkSplitter (chunk_size (config self)) (chunk_overlap (config self)) in
  (forall e, parser_load W (loader l) = Err e ->
     process_document W p false self =
       (Err (Exn.Raise Exn.FileLoadError
               ("Unexpected error during document processing: "
                  ++ (load_prefix l ++ Exn.str e))), self))
  /\ (forall e, parser_load_and_split W (loader l) ts = Err e ->
     process_document W p true self =
       (Err (Exn.Raise Exn.FileLoadError
               ("Unexpected error during document processing: "
                  ++ (load_and_split_prefix l ++ Exn.str e))), self))
  /\ (forall m, load W l = Err (Exn.Raise Exn.FileLoadError m) ->
     process_document W p false self =
       (Err (Exn.Raise Exn.FileLoadError
               ("Unexpected error during document processing: " ++ m)), self)
     /\ "Unexpected error during document processing: " ++ m <> m)
  /\ (forall m, load_and_split W l ts = Err (Exn.Raise Exn.FileLoadError m) ->
     process_document W p true self =
       (Err (Exn.Raise Exn.FileLoadError
               ("Unexpected error during document processing: " ++ m)), self)
     /\ "Unexpected error during document processing: " ++ m <> m).
Proof.
  intros E ts. change ts with (splitter_of self).
  assert (Hload : forall m, load W l = Err (Exn.Raise Exn.FileLoadError m) ->
            process_document W p false self =
              (Err (Exn.Raise Exn.FileLoadError
                 ("Unexpected error during document processing: " ++ m)), self)).
  { intros m Hm. rewrite process_document_eq, process_document_body_eq, E.
    simpl. rewrite Hm. reflexivity. }
  assert (Hsplit : forall m,
            load_and_split W l (splitter_of self)
              = Err (Exn.Raise Exn.FileLoadError m) ->
            process_document W p true self =
              (Err (Exn.Raise Exn.FileLoadError
                 ("Unexpected error during document processing: " ++ m)), self)).
  { intros m Hm. rewrite process_document_eq, process_document_body_eq, E.
    simpl. rewrite Hm. reflexivity. }
  split; [|split; [|split]].
  - intros e He. apply Hload.
    apply (proj1 (loader_wraps_parser_errors_aux W l (splitter_of self)) e He).
  - intros e He. apply Hsplit.
    apply (proj2 (loader_wraps_parser_errors_aux W l (splitter_of self)) e He).
  - intros m Hm. split; [apply Hload, Hm|].
    apply nonempty_prefix_differs. discriminate.
  - intros m Hm. split; [apply Hsplit, Hm|].
    apply nonempty_prefix_differs. discriminate.
Qed.

Lemma process_document_double_wraps_witness :
  process_document Demo.world "/docs/broken.pdf" false Demo.processor =
    (Err (Exn.Raise Exn.FileLoadError
            "Unexpected error during document processing: Error loading PDF file: EOF marker not found"),
     Demo.processor)
  /\ process_document Demo.world "/docs/broken.pdf" true Demo.processor =
    (Err (Exn.Raise Exn.FileLoadError
            "Unexpected error during document processing: Error loading and splitting PDF file: EOF marker not found"),
     Demo.processor).
Proof.
  split.
  - apply (proj1 (process_document_double_wraps Demo.world Demo.processor
                    "/docs/broken.pdf"
                    (PDFDocumentLoader "/docs/broken.pdf" "/docs/broken.pdf") eq_refl)
             (Exn.Raise Exn.OtherException "EOF marker not found") eq_refl).
  - apply (proj1 (proj2 (process_document_double_wraps Demo.world Demo.processor
                    "/docs/broken.pdf"
                    (PDFDocumentLoader "/docs/broken.pdf" "/docs/broken.pdf") eq_refl))
             (Exn.Raise Exn.OtherException "EOF marker not found") eq_refl).
Defined.

(** [DocumentProcessor()] holds the default configuration, 100 and 20. *)
Example processor_default_config :
  DocumentProcessor_init None = Ok (mkProcessor (mkConfig 100 20)).
Proof. reflexivity. Qed.

(** C8. A configuration that was constructed satisfies
    [0 <= chunk_overlap < chunk_size]; [create_text_splitter] and
    [process_document] leave the configuration as it was, so after any
    sequence of such calls on a processor holding it the configuration is the
    same and the invariant still holds. *)
Theorem config_invariant_preserved {Document Parser : Type}
    (W : World Document Parser) (s o : Z) (c : DocumentProcessorConfig)
    (cs : list call) :
  DocumentProcessorConfig_init s o = Ok c ->
  0 <= chunk_overlap c < chunk_size c
  /\ snd (create_text_splitter c) = c
  /\ (forall p b, config (snd (process_document W p b (mkProcessor c))) = c)
  /\ config (after_calls W (mkProcessor c) cs) = c
  /\ 0 <= chunk_overlap (config (after_calls W (mkProcessor c) cs))
        < chunk_size (config (after_calls W (mkProcessor c) cs)).
Proof.
  intros Hc. apply config_init_inv in Hc. destruct Hc as [-> [Hs Ho]].
  rewrite after_calls_keeps_self. simpl.
  repeat split; try lia.
  intros p b. rewrite process_document_keeps_self. reflexivity.
Qed.

Lemma config_invariant_preserved_witness :
  0 <= chunk_overlap Demo.cfg < chunk_size Demo.cfg
  /\ config (after_calls Demo.world Demo.processor
               [ProcessDocument "/docs/report.PDF" true; CreateTextSplitter;
                ProcessDocument "/docs/broken.pdf" false;
                ProcessDocument "/docs/absent.pdf" true]) = Demo.cfg.
Proof.
  pose proof (config_invariant_preserved Demo.world 150 30 Demo.cfg
                [ProcessDocument "/docs/report.PDF" true; CreateTextSplitter;
                 ProcessDocument "/docs/broken.pdf" false;
                 ProcessDocument "/docs/absent.pdf" true] eq_refl) as H.
  split; [exact (proj1 H) | exact (proj1 (proj2 (proj2 (proj2 H))))].
Defined.

(** C9. [create_text_splitter] returns the splitter built from exactly the
    stored chunk size and overlap and leaves the configuration as it was; any
    number of calls in a row give that same splitter each time. With
    [chunk_size = 150] and [chunk_overlap = 30] the configuration is
    constructed and its splitter has size 150 and overlap 30. *)
Theorem create_text_splitter_pure (c : DocumentProcessorConfig) (n : nat) :
  create_text_splitter c = (Ok (mkSplitter (chunk_size c) (chunk_overlap c)), c)
  /\ call_times create_text_splitter n c
      = (repeat (Ok (mkSplitter (chunk_size c) (chunk_overlap c))) n, c)
  /\ DocumentProcessorConfig_init 150 30 = Ok (mkConfig 150 30)
  /\ DocumentProcessorConfig_new (Some 150) (Some 30) = Ok (mkConfig 150 30)
  /\ fst (create_text_splitter (mkConfig 150 30)) = Ok (mkSplitter 150 30).
Proof.
  split; [reflexivity|split; [|repeat split]].
  induction n as [|n IH]; [reflexivity|].
  cbn [call_times repeat].
  change (create_text_splitter c)
    with (Ok (mkSplitter (chunk_size c) (chunk_overlap c)), c).
  cbv iota beta. rewrite IH. reflexivity.
Qed.

(** * More on the selector: what it makes of the shape of a path *)

Lemma append_assoc (a b c : string) : (a ++ b) ++ c = a ++ (b ++ c).
Proof. induction a as [|x a IH]; simpl; [reflexivity | now rewrite IH]. Qed.

Lemma length_append (a b : string) :
  String.length (a ++ b) = (String.length a + String.length b)%nat.
Proof. induction a as [|x a IH]; simpl; [reflexivity | now rewrite IH]. Qed.

Lemma rfind_from_free (c : ascii) (s : string) (i last : Z) :
  Str.free_of c s = true -> Str.rfind_from c s i last = last.
Proof.
  revert i last. induction s as [|a s IH]; intros i last; simpl; [reflexivity|].
  intros H. apply andb_true_iff in H. destruct H as [Ha Hs].
  apply negb_true_iff in Ha. rewrite Ha. apply IH, Hs.
Qed.

Lemma rfind_from_app (c : ascii) (a b : string) (i last : Z) :
  Str.rfind_from c (a ++ b) i last
  = Str.rfind_from c b (i + Z.of_nat (String.length a)) (Str.rfind_from c a i last).
Proof.
  revert i last. induction a as [|x a IH]; intros i last; simpl.
  - f_equal. lia.
  - rewrite IH. f_equal. lia.
Qed.

Lemma rfind_from_range (c : ascii) (s : string) (i last : Z) :
  Str.rfind_from c s i last = last
  \/ i <= Str.rfind_from c s i last < i + Z.of_nat (String.length s).
Proof.
  destruct (rfind_from_spec c s i last) as [[E _]|[k [rest [Hk [E _]]]]].
  - left. exact E.
  - right. rewrite E. lia.
Qed.

Lemma substring_skip (a b : string) (m : nat) :
  substring (String.length a) m (a ++ b) = substring 0 m b.
Proof. induction a as [|x a IH]; simpl; [reflexivity|exact IH]. Qed.

Lemma substring_prefix (a b : string) :
  substring 0 (String.length a) (a ++ b) = a.
Proof.
  induction a as [|x a IH]; simpl.
  - destruct b; reflexivity.
  - now rewrite IH.
Qed.

(** The loop of [splitext], started at the first character of the last
    component [name], finds a character that is not a period exactly when
    [name] has one. *)
Lemma has_name_before_dot_name (name dir rest : string) :
  Str.has_name_before_dot (dir ++ name ++ rest)
    (Z.of_nat (String.length dir)) (String.length name)
  = negb (only_dots name).
Proof.
  revert dir. induction name as [|c name IH]; intros dir; [reflexivity|].
  cbn [Str.has_name_before_dot String.length only_dots].
  unfold Str.slice.
  replace (Z.to_nat (Z.of_nat (String.length dir) + 1 - Z.of_nat (String.length dir)))
    with 1%nat by lia.
  rewrite Nat2Z.id, substring_skip. simpl substring.
  replace (substring 0 0 (name ++ rest)) with EmptyString
    by (destruct (name ++ rest); reflexivity).
  cbn [String.eqb].
  replace (dir ++ String c name ++ rest) with ((dir ++ String c "") ++ name ++ rest)
    by (rewrite append_assoc; reflexivity).
  replace (Z.of_nat (String.length dir) + 1)
    with (Z.of_nat (String.length (dir ++ String c "")))
    by (rewrite length_append; simpl; lia).
  rewrite IH.
  destruct (Ascii.eqb c Str.extsep); reflexivity.
Qed.

Lemma rfind_sep_dir (dir : string) :
  dir_prefix dir ->
  Str.rfind Str.sep dir = Z.of_nat (String.length dir) - 1.
Proof.
  unfold Str.rfind. intros [->|[d ->]]; [reflexivity|].
  rewrite rfind_from_app, length_append. simpl. lia.
Qed.

Lemma only_dots_free_of_sep (name : string) :
  only_dots name = true -> Str.free_of Str.sep name = true.
Proof.
  induction name as [|c name IH]; [reflexivity|].
  simpl. intros H. apply andb_true_iff in H. destruct H as [Hc Hn].
  apply Ascii.eqb_eq in Hc. subst c. simpl. apply IH, Hn.
Qed.

(** The two indices [splitext] computes on [dir ++ name ++ "." ++ e]. *)
Lemma splitext_indices (dir name e : string) :
  dir_prefix dir ->
  Str.free_of Str.sep name = true ->
  Str.free_of Str.sep e = true ->
  Str.free_of Str.extsep e = true ->
  Str.rfind Str.sep (dir ++ name ++ String Str.extsep e)
    = Z.of_nat (String.length dir) - 1
  /\ Str.rfind Str.extsep (dir ++ name ++ String Str.extsep e)
    = Z.of_nat (String.length dir + String.length name).
Proof.
  intros Hdir Hname Hes Hed. split.
  - unfold Str.rfind. rewrite rfind_from_app.
    fold (Str.rfind Str.sep dir). rewrite (rfind_sep_dir dir Hdir).
    rewrite rfind_from_app, (rfind_from_free _ name) by exact Hname.
    simpl. apply rfind_from_free, Hes.
  - unfold Str.rfind. rewrite <- append_assoc, rfind_from_app.
    simpl. rewrite length_append. rewrite rfind_from_free by exact Hed. lia.
Qed.

Lemma splitext_name_ext (dir name e : string) :
  dir_prefix dir ->
  Str.free_of Str.sep name = true ->
  only_dots name = false ->
  Str.free_of Str.sep e = true ->
  Str.free_of Str.extsep e = true ->
  Str.splitext (dir ++ name ++ String Str.extsep e)
    = (dir ++ name, String Str.extsep e).
Proof.
  intros Hdir Hname Hdots Hes Hed.
  destruct (splitext_indices dir name e Hdir Hname Hes Hed) as [Es Ed].
  unfold Str.splitext. rewrite Es, Ed.
  replace (Z.of_nat (String.length dir) - 1 + 1)
    with (Z.of_nat (String.length dir)) by lia.
  replace (Z.to_nat (Z.of_nat (String.length dir + String.length name)
                     - Z.of_nat (String.length dir)))
    with (String.length name) by lia.
  rewrite has_name_before_dot_name, Hdots.
  replace (Z.of_nat (String.length dir + String.length name)
             >? Z.of_nat (String.length dir) - 1)
    with true by (symmetry; apply Z.gtb_lt; lia).
  simpl andb. cbv iota.
  unfold Str.take, Str.drop. rewrite Nat2Z.id.
  rewrite <- append_assoc, <- length_append.
  rewrite substring_prefix, substring_skip.
  rewrite length_append.
  replace (String.length (dir ++ name) + String.length (String Str.extsep e)
           - String.length (dir ++ name))%nat
    with (String.length (String Str.extsep e)) by lia.
  rewrite substring_all. reflexivity.
Qed.

Lemma splitext_hidden (dir name e : string) :
  dir_prefix dir ->
  only_dots name = true ->
  Str.free_of Str.sep e = true ->
  Str.free_of Str.extsep e = true ->
  Str.splitext (dir ++ name ++ String Str.extsep e)
    = (dir ++ name ++ String Str.extsep e, "").
Proof.
  intros Hdir Hdots Hes Hed.
  pose proof (only_dots_free_of_sep name Hdots) as Hname.
  destruct (splitext_indices dir name e Hdir Hname Hes Hed) as [Es Ed].
  unfold Str.splitext. rewrite Es, Ed.
  replace (Z.of_nat (String.length dir) - 1 + 1)
    with (Z.of_nat (String.length dir)) by lia.
  replace (Z.to_nat (Z.of_nat (String.length dir + String.length name)
                     - Z.of_nat (String.length dir)))
    with (String.length name) by lia.
  rewrite has_name_before_dot_name, Hdots. rewrite andb_false_r. reflexivity.
Qed.

Lemma splitext_no_period (dir name : string) :
  dir_prefix dir ->
  Str.free_of Str.extsep name = true ->
  Str.splitext (dir ++ name) = (dir ++ name, "").
Proof.
  intros Hdir Hname. unfold Str.splitext.
  assert (Hle : Str.rfind Str.extsep (dir ++ name) <= Str.rfind Str.sep (dir ++ name)).
  { unfold Str.rfind. rewrite !rfind_from_app.
    rewrite (rfind_from_free Str.extsep name) by exact Hname.
    fold (Str.rfind Str.sep dir). rewrite (rfind_sep_dir dir Hdir).
    simpl.
    destruct (rfind_from_range Str.extsep dir 0 (-1)) as [E|E];
      destruct (rfind_from_range Str.sep name (Z.of_nat (String.length dir))
                  (Z.of_nat (String.length dir) - 1)) as [E'|E']; lia. }
  rewrite Z.gtb_ltb. apply Z.ltb_ge in Hle. rewrite Hle. reflexivity.
Qed.

(** On [dir ++ name ++ "." ++ e], the extension in the model. *)
Lemma ext_of_name_ext_aux (dir name e : string) :
  dir_prefix dir ->
  Str.free_of Str.sep name = true ->
  only_dots name = false ->
  Str.free_of Str.sep e = true ->
  Str.free_of Str.extsep e = true ->
  ext_of (dir ++ name ++ "." ++ e) = String "."%char (Str.lower e).
Proof.
  intros Hdir Hname Hdots Hes Hed. unfold ext_of.
  change (dir ++ name ++ "." ++ e) with (dir ++ name ++ String Str.extsep e).
  rewrite (splitext_name_ext dir name e Hdir Hname Hdots Hes Hed).
  reflexivity.
Qed.

(** X3. On a path [dir/name.e] whose last component has a [name] with a
    character that is not a period and an ASCII [e] free of periods and
    separators, the extension the selector dispatches on is the period
    followed by [e] in lower case. *)
Theorem ext_of_name_ext (dir name e : string) :
  dir_prefix dir ->
  Str.free_of Str.sep name = true ->
  only_dots name = false ->
  Str.free_of Str.sep e = true ->
  Str.free_of Str.extsep e = true ->
  Str.is_ascii e = true ->
  ext_of (dir ++ name ++ "." ++ e) = "." ++ Str.lower e.
Proof.
  intros Hdir Hname Hdots Hes Hed _.
  exact (ext_of_name_ext_aux dir name e Hdir Hname Hdots Hes Hed).
Qed.

Lemma ext_of_name_ext_witness :
  ext_of ("/docs/" ++ "report.v2" ++ "." ++ "PdF") = "." ++ Str.lower "PdF".
Proof.
  apply (ext_of_name_ext "/docs/" "report.v2" "PdF");
    [right; exists "/docs"; reflexivity | reflexivity | reflexivity
     | reflexivity | reflexivity | reflexivity].
Defined.

(** X4. The selector on an existing path [dir/name.e] of that shape, [e]
    ASCII: when [e] in lower case is [pdf], [docx] or [txt] and the matching
    parser constructs, it returns the loader of that class on the path,
    whatever the case of the letters of [e]; for any other [e] it raises
    [UnsupportedFileTypeError] naming the period and [e] in lower case. *)
Theorem create_loader_by_suffix {Document Parser : Type}
    (W : World Document Parser) (dir name e : string) (h : Parser) :
  dir_prefix dir ->
  Str.free_of Str.sep name = true ->
  only_dots name = false ->
  Str.free_of Str.sep e = true ->
  Str.free_of Str.extsep e = true ->
  Str.is_ascii e = true ->
  let p := dir ++ name ++ "." ++ e in
  path_exists W p = true ->
  (Str.lower e = "pdf" -> PyPDFLoader W p = Ok h ->
     create_loader W p = Ok (PDFDocumentLoader p h))
  /\ (Str.lower e = "docx" -> Docx2txtLoader W p = Ok h ->
     create_loader W p = Ok (DOCXDocumentLoader p h))
  /\ (Str.lower e = "txt" -> TextLoader W p = Ok h ->
     create_loader W p = Ok (TXTDocumentLoader p h))
  /\ (Str.lower e <> "pdf" -> Str.lower e <> "docx" -> Str.lower e <> "txt" ->
     create_loader W p =
       Err (Exn.Raise Exn.UnsupportedFileTypeError
              ("Unsupported file type: ." ++ Str.lower e))).
Proof.
  intros Hdir Hname Hdots Hes Hed _ p Hex.
  rewrite (create_loader_existing W p Hex).
  unfold p.
  rewrite (ext_of_name_ext_aux dir name e Hdir Hname Hdots Hes Hed).
  fold p. split; [|split; [|split]].
  - intros -> ->. reflexivity.
  - intros -> ->. reflexivity.
  - intros -> ->. reflexivity.
  - intros Hpdf Hdocx Htxt.
    cbn [String.eqb]. rewrite Ascii.eqb_refl.
    apply String.eqb_neq in Hpdf, Hdocx, Htxt.
    rewrite Hpdf, Hdocx, Htxt. reflexivity.
Qed.

Lemma create_loader_by_suffix_witness :
  create_loader Demo.world ("/docs/" ++ "report" ++ "." ++ "PDF")
    = Ok (PDFDocumentLoader "/docs/report.PDF" "/docs/report.PDF")
  /\ create_loader Demo.world ("/docs/" ++ "table" ++ "." ++ "csv")
    = Err (Exn.Raise Exn.UnsupportedFileTypeError "Unsupported file type: .csv").
Proof.
  split.
  - apply (proj1 (create_loader_by_suffix Demo.world "/docs/" "report" "PDF"
             "/docs/report.PDF"
             (or_intror (ex_intro _ "/docs" eq_refl))
             eq_refl eq_refl eq_refl eq_refl eq_refl eq_refl)); reflexivity.
  - apply (proj2 (proj2 (proj2 (create_loader_by_suffix Demo.world "/docs/"
             "table" "csv" "/docs/table.csv"
             (or_intror (ex_intro _ "/docs" eq_refl))
             eq_refl eq_refl eq_refl eq_refl eq_refl eq_refl)))); discriminate.
Defined.

(** X5. An existing path whose last component has no period has the empty
    extension: the selector raises [UnsupportedFileTypeError] with nothing
    after "Unsupported file type: ", periods in the directories or not. *)
Theorem create_loader_no_period {Document Parser : Type}
    (W : World Document Parser) (dir name : string) :
  dir_prefix dir ->
  Str.free_of Str.extsep name = true ->
  path_exists W (dir ++ name) = true ->
  create_loader W (dir ++ name) =
    Err (Exn.Raise Exn.UnsupportedFileTypeError "Unsupported file type: ").
Proof.
  intros Hdir Hname Hex. rewrite (create_loader_existing W _ Hex).
  unfold ext_of. rewrite (splitext_no_period dir name Hdir Hname). reflexivity.
Qed.

Lemma create_loader_no_period_witness :
  create_loader Demo.full_world ("/data.d/" ++ "README") =
    Err (Exn.Raise Exn.UnsupportedFileTypeError "Unsupported file type: ").
Proof.
  apply (create_loader_no_period Demo.full_world "/data.d/" "README");
    [right; exists "/data.d"; reflexivity | reflexivity | reflexivity].
Defined.

(** X6. An existing file whose name is periods followed by [e], such as
    [.pdf] or [..txt], has the empty extension too: the selector raises
    [UnsupportedFileTypeError] even when [e] is [pdf], [docx] or [txt]. *)
Theorem create_loader_hidden_file {Document Parser : Type}
    (W : World Document Parser) (dir dots e : string) :
  dir_prefix dir ->
  only_dots dots = true ->
  Str.free_of Str.sep e = true ->
  Str.free_of Str.extsep e = true ->
  path_exists W (dir ++ dots ++ "." ++ e) = true ->
  create_loader W (dir ++ dots ++ "." ++ e) =
    Err (Exn.Raise Exn.UnsupportedFileTypeError "Unsupported file type: ").
Proof.
  intros Hdir Hdots Hes Hed Hex. rewrite (create_loader_existing W _ Hex).
  unfold ext_of.
  change (dir ++ dots ++ "." ++ e) with (dir ++ dots ++ String Str.extsep e).
  rewrite (splitext_hidden dir dots e Hdir Hdots Hes Hed). reflexivity.
Qed.

Lemma create_loader_hidden_file_witness :
  create_loader Demo.full_world ("/home/u/" ++ "" ++ "." ++ "pdf") =
    Err (Exn.Raise Exn.UnsupportedFileTypeError "Unsupported file type: ").
Proof.
  apply (create_loader_hidden_file Demo.full_world "/home/u/" "" "pdf");
    [right; exists "/home/u"; reflexivity | reflexivity | reflexivity
     | reflexivity | reflexivity].
Defined.

(** X7. On a path whose extension is [.pdf] (or [.docx], or [.txt]) the
    selector does what the constructor of the matching loader class does on
    that path, errors included, whether the path exists or not. *)
Theorem create_loader_agrees_with_constructor {Document Parser : Type}
    (W : World Document Parser) (p : string) :
  (ext_of p = ".pdf" -> create_loader W p = PDFDocumentLoader_init W p)
  /\ (ext_of p = ".docx" -> create_loader W p = DOCXDocumentLoader_init W p)
  /\ (ext_of p = ".txt" -> create_loader W p = TXTDocumentLoader_init W p).
Proof.
  unfold create_loader, PDFDocumentLoader_init, DOCXDocumentLoader_init,
    TXTDocumentLoader_init.
  repeat split; intros ->; destruct (path_exists W p); reflexivity.
Qed.

Lemma create_loader_agrees_with_constructor_witness :
  create_loader Demo.world "/docs/letter.docx"
    = DOCXDocumentLoader_init Demo.world "/docs/letter.docx"
  /\ create_loader Demo.world "/docs/absent.txt"
    = TXTDocumentLoader_init Demo.world "/docs/absent.txt".
Proof.
  split.
  - apply (proj1 (proj2 (create_loader_agrees_with_constructor Demo.world
                           "/docs/letter.docx"))). reflexivity.
  - apply (proj2 (proj2 (create_loader_agrees_with_constructor Demo.world
                           "/docs/absent.txt"))). reflexivity.
Defined.

(** * More on the facade, the configuration and the script *)

Lemma process_document_pair {Document Parser : Type}
    (W : World Document Parser) (p : string) (b : bool) (self : DocumentProcessor) :
  process_document W p b self = (fst (process_document W p b self), self).
Proof.
  rewrite <- (process_document_keeps_self W p b self) at 3.
  apply surjective_pairing.
Qed.

(** What [process_document] raises is a [FileLoadError] carrying one of the
    two prefixes of the facade. *)
Lemma process_document_raises {Document Parser : Type}
    (W : World Document Parser) (p : string) (b : bool)
    (self : DocumentProcessor) (e : exn) :
  fst (process_document W p b self) = Err e ->
  exists m,
    e = Exn.Raise Exn.FileLoadError ("Document processing failed: " ++ m)
    \/ e = Exn.Raise Exn.FileLoadError
             ("Unexpected error during document processing: " ++ m).
Proof.
  rewrite process_document_eq.
  destruct (fst (process_document_body W p b self)) as [docs|e0];
    [discriminate|].
  unfold process_document_except, mraise, file_load_error.
  destruct (Exn.class e0); simpl; intros H; inversion H; exists (Exn.str e0);
    auto.
Qed.

(** X8. On a path that does not exist, [process_document] raises
    [FileLoadError] with the message "Document processing failed: File not
    found: " and the path, with or without splitting, whatever the extension
    and the configuration, and the processor is as before. *)
Theorem process_document_missing_path {Document Parser : Type}
    (W : World Document Parser) (self : DocumentProcessor)
    (p : string) (b : bool) :
  path_exists W p = false ->
  process_document W p b self =
    (Err (Exn.Raise Exn.FileLoadError
            ("Document processing failed: File not found: " ++ p)), self).
Proof.
  intros Hex. rewrite process_document_eq, process_document_body_eq.
  unfold create_loader. rewrite Hex. reflexivity.
Qed.

Lemma process_document_missing_path_witness :
  process_document Demo.world "/docs/absent.xyz" false Demo.processor =
    (Err (Exn.Raise Exn.FileLoadError
            "Document processing failed: File not found: /docs/absent.xyz"),
     Demo.processor).
Proof.
  apply (process_document_missing_path Demo.world Demo.processor
           "/docs/absent.xyz" false). reflexivity.
Defined.

(** X9. On an existing path whose extension is ASCII and, lowered, none of
    [.pdf], [.docx], [.txt], [process_document] raises [FileLoadError] with
    "Document processing failed: Unsupported file type: " and the lowered
    extension; no parser is asked anything. *)
Theorem process_document_unsupported {Document Parser : Type}
    (W : World Document Parser) (self : DocumentProcessor)
    (p : string) (b : bool) :
  path_exists W p = true ->
  Str.is_ascii (snd (Str.splitext p)) = true ->
  ext_of p <> ".pdf" -> ext_of p <> ".docx" -> ext_of p <> ".txt" ->
  process_document W p b self =
    (Err (Exn.Raise Exn.FileLoadError
            ("Document processing failed: Unsupported file type: " ++ ext_of p)),
     self).
Proof.
  intros Hex _ Hpdf Hdocx Htxt.
  rewrite process_document_eq, process_document_body_eq.
  rewrite (create_loader_existing W p Hex).
  apply String.eqb_neq in Hpdf, Hdocx, Htxt.
  rewrite Hpdf, Hdocx, Htxt. reflexivity.
Qed.

Lemma process_document_unsupported_witness :
  process_document Demo.world "/docs/table.csv" true Demo.processor =
    (Err (Exn.Raise Exn.FileLoadError
            "Document processing failed: Unsupported file type: .csv"),
     Demo.processor).
Proof.
  apply (process_document_unsupported Demo.world Demo.processor
           "/docs/table.csv" true);
    [reflexivity | reflexivity | discriminate | discriminate | discriminate].
Defined.

(** X10. When the path exists and has a supported extension but the
    matching external parser cannot be constructed on it and raises [e], the
    loader classes do not wrap [e]: [process_document] raises [FileLoadError]
    with "Unexpected error during document processing: " and [str(e)], unless
    [e] is itself a [FileNotFoundError] or an [UnsupportedFileTypeError],
    which get "Document processing failed: ". *)
Theorem process_document_parser_constructor_error {Document Parser : Type}
    (W : World Document Parser) (self : DocumentProcessor)
    (p : string) (b : bool) (e : exn) :
  path_exists W p = true ->
  (ext_of p = ".pdf" /\ PyPDFLoader W p = Err e)
  \/ (ext_of p = ".docx" /\ Docx2txtLoader W p = Err e)
  \/ (ext_of p = ".txt" /\ TextLoader W p = Err e) ->
  create_loader W p = Err e
  /\ (Exn.class e <> Exn.FileNotFoundError ->
      Exn.class e <> Exn.UnsupportedFileTypeError ->
      process_document W p b self =
        (Err (Exn.Raise Exn.FileLoadError
                ("Unexpected error during document processing: " ++ Exn.str e)),
         self))
  /\ (Exn.class e = Exn.FileNotFoundError
      \/ Exn.class e = Exn.UnsupportedFileTypeError ->
      process_document W p b self =
        (Err (Exn.Raise Exn.FileLoadError
                ("Document processing failed: " ++ Exn.str e)), self)).
Proof.
  intros Hex Hctor.
  assert (Hc : create_loader W p = Err e).
  { rewrite (create_loader_existing W p Hex).
    destruct Hctor as [[-> ->]|[[-> ->]|[-> ->]]]; reflexivity. }
  split; [exact Hc|].
  rewrite process_document_eq, process_document_body_eq, Hc. simpl.
  unfold process_document_except, mraise, file_load_error.
  split.
  - intros Hf Hu. destruct (Exn.class e); try reflexivity; congruence.
  - intros [-> | ->]; reflexivity.
Qed.

Lemma process_document_parser_constructor_error_witness :
  process_document Demo.no_pdf_parser_world "/docs/report.PDF" true Demo.processor =
    (Err (Exn.Raise Exn.FileLoadError
            "Unexpected error during document processing: File path /docs/report.PDF is not a valid file or url"),
     Demo.processor).
Proof.
  apply (proj1 (proj2 (process_document_parser_constructor_error
           Demo.no_pdf_parser_world Demo.processor "/docs/report.PDF" true
           (Exn.Raise Exn.OtherException
              "File path /docs/report.PDF is not a valid file or url")
           eq_refl (or_introl (conj eq_refl eq_refl)))));
    discriminate.
Defined.

(** X11. Every call of [process_document] leaves the processor as it was and
    either returns documents or raises a [FileLoadError] whose message starts
    with one of the two prefixes of the facade; it returns documents only for
    a path that exists and whose lowered extension is [.pdf], [.docx] or
    [.txt]. *)
Theorem process_document_outcome {Document Parser : Type}
    (W : World Document Parser) (self : DocumentProcessor)
    (p : string) (b : bool) :
  snd (process_document W p b self) = self
  /\ ((exists docs, fst (process_document W p b self) = Ok docs)
      \/ (exists m, fst (process_document W p b self) =
            Err (Exn.Raise Exn.FileLoadError ("Document processing failed: " ++ m)))
      \/ (exists m, fst (process_document W p b self) =
            Err (Exn.Raise Exn.FileLoadError
                   ("Unexpected error during document processing: " ++ m))))
  /\ (forall docs, fst (process_document W p b self) = Ok docs ->
        path_exists W p = true
        /\ (ext_of p = ".pdf" \/ ext_of p = ".docx" \/ ext_of p = ".txt")).
Proof.
  split; [apply process_document_keeps_self|split].
  - destruct (fst (process_document W p b self)) as [docs|e] eqn:E.
    + left. exists docs. reflexivity.
    + destruct (process_document_raises W p b self e E) as [m [-> | ->]];
        [right; left | right; right]; exists m; reflexivity.
  - intros docs. rewrite process_document_eq, process_document_body_eq.
    destruct (path_exists W p) eqn:Hex.
    + rewrite (create_loader_existing W p Hex).
      destruct (String.eqb_spec (ext_of p) ".pdf") as [Hp|_]; [auto|].
      destruct (String.eqb_spec (ext_of p) ".docx") as [Hd|_]; [auto|].
      destruct (String.eqb_spec (ext_of p) ".txt") as [Ht|_]; [auto|].
      simpl. discriminate.
    + unfold create_loader. rewrite Hex. simpl. discriminate.
Qed.

Lemma process_document_outcome_witness :
  path_exists Demo.world "/docs/notes.txt" = true
  /\ (ext_of "/docs/notes.txt" = ".pdf" \/ ext_of "/docs/notes.txt" = ".docx"
      \/ ext_of "/docs/notes.txt" = ".txt").
Proof.
  apply (proj2 (proj2 (process_document_outcome Demo.world Demo.processor
                         "/docs/notes.txt" false))
           ["text of /docs/notes.txt"]).
  reflexivity.
Defined.

(** X12. With only [chunk_size] given, the overlap is 20: the configuration
    is constructed exactly when [chunk_size > 20], and a [chunk_size] from 1
    to 20 is refused with "chunk_overlap must be smaller than chunk_size".
    With only [chunk_overlap] given, the size is 100: the configuration is
    constructed exactly when [0 <= chunk_overlap < 100]. *)
Theorem config_new_one_default (s o : Z) :
  ((exists c, DocumentProcessorConfig_new (Some s) None = Ok c) <-> 20 < s)
  /\ (20 < s -> DocumentProcessorConfig_new (Some s) None = Ok (mkConfig s 20))
  /\ (0 < s <= 20 ->
      DocumentProcessorConfig_new (Some s) None =
        Err (Exn.Raise Exn.InvalidConfigurationError
               "chunk_overlap must be smaller than chunk_size"))
  /\ ((exists c, DocumentProcessorConfig_new None (Some o) = Ok c) <-> 0 <= o < 100)
  /\ (0 <= o < 100 ->
      DocumentProcessorConfig_new None (Some o) = Ok (mkConfig 100 o)).
Proof.
  unfold DocumentProcessorConfig_new, DocumentProcessorConfig_init,
    invalid_configuration.
  change (20 <? 0) with false. change (100 <=? 0) with false. cbv iota.
  destruct (Z.leb_spec s 0) as [Hs|Hs];
    destruct (Z.geb_spec 20 s) as [Hs'|Hs'];
    destruct (Z.ltb_spec o 0) as [Ho|Ho];
    destruct (Z.geb_spec o 100) as [Ho'|Ho'].
  all: repeat split; intros; try lia; try reflexivity; try discriminate.
  all: try (eexists; reflexivity).
  all: match goal with
       | H : exists _, _ |- _ => destruct H; discriminate
       end.
Qed.

Lemma config_new_one_default_witness :
  DocumentProcessorConfig_new (Some 21) None = Ok (mkConfig 21 20)
  /\ DocumentProcessorConfig_new (Some 20) None =
       Err (Exn.Raise Exn.InvalidConfigurationError
              "chunk_overlap must be smaller than chunk_size")
  /\ DocumentProcessorConfig_new None (Some 99) = Ok (mkConfig 100 99).
Proof.
  split; [|split].
  - apply (proj1 (proj2 (config_new_one_default 21 0))). lia.
  - apply (proj1 (proj2 (proj2 (config_new_one_default 20 0)))). lia.
  - apply (proj2 (proj2 (proj2 (proj2 (config_new_one_default 100 99))))). lia.
Defined.

(** X13. Constructing a processor never fails, with a configuration that
    was constructed or with none; the splitter it then builds has the chunk
    size and overlap of that configuration (100 and 20 with none) and
    satisfies [0 <= chunk_overlap < chunk_size]. *)
Theorem processor_init_splitter (oc : option DocumentProcessorConfig) :
  (forall c, oc = Some c ->
     exists s o, DocumentProcessorConfig_new s o = Ok c) ->
  exists P ts,
    DocumentProcessor_init oc = Ok P
    /\ config P = match oc with Some c => c | None => mkConfig 100 20 end
    /\ on_config create_text_splitter P = (Ok ts, P)
    /\ splitter_chunk_size ts = chunk_size (config P)
    /\ splitter_chunk_overlap ts = chunk_overlap (config P)
    /\ 0 <= splitter_chunk_overlap ts < splitter_chunk_size ts.
Proof.
  intros Hc. destruct oc as [c|].
  - destruct (Hc c eq_refl) as [s [o Hso]].
    unfold DocumentProcessorConfig_new in Hso.
    apply config_init_inv in Hso. destruct Hso as [-> [Hs Ho]].
    eexists. eexists. simpl. repeat split; simpl; lia.
  - eexists. eexists. simpl. repeat split; simpl; lia.
Qed.

Lemma processor_init_splitter_witness :
  exists P ts,
    DocumentProcessor_init (Some Demo.cfg) = Ok P
    /\ config P = Demo.cfg
    /\ on_config create_text_splitter P = (Ok ts, P)
    /\ splitter_chunk_size ts = chunk_size (config P)
    /\ splitter_chunk_overlap ts = chunk_overlap (config P)
    /\ 0 <= splitter_chunk_overlap ts < splitter_chunk_size ts.
Proof.
  apply (processor_init_splitter (Some Demo.cfg)).
  intros c Hc. exists (Some 150), (Some 30). inversion Hc. reflexivity.
Defined.

(** The [try] block of the script, call by call. *)
Lemma main_body_eq {Document Parser : Type} (W : World Document Parser) :
  main_body W =
    match fst (process_document W "/path/to/document.pdf" true main_processor) with
    | Err e => Err e
    | Ok pdf_docs =>
        match fst (process_document W "/path/to/document.docx" false main_processor) with
        | Err e => Err e
        | Ok docx_docs =>
            match fst (process_document W "/path/to/document.txt" true main_processor) with
            | Err e => Err e
            | Ok txt_docs => Ok (loaded_lines pdf_docs docx_docs txt_docs)
            end
        end
    end.
Proof.
  unfold main_body. simpl rbind.
  change (mkProcessor (mkConfig 150 30)) with main_processor.
  unfold main_calls, mbind, mret, process_document_default.
  rewrite (process_document_pair W "/path/to/document.pdf" true main_processor).
  destruct (fst (process_document W "/path/to/document.pdf" true main_processor))
    as [d1|e1]; [|reflexivity].
  rewrite (process_document_pair W "/path/to/document.docx" false main_processor).
  destruct (fst (process_document W "/path/to/document.docx" false main_processor))
    as [d2|e2]; [|reflexivity].
  rewrite (process_document_pair W "/path/to/document.txt" true main_processor).
  destruct (fst (process_document W "/path/to/document.txt" true main_processor))
    as [d3|e3]; reflexivity.
Qed.

(** X14. Whatever the files and the parsers, the script prints either the
    three "Loaded ..." lines, with the numbers of documents the three calls
    returned, or one single line "Error processing document: " followed by a
    message of the facade; it never prints "Invalid configuration: ..." nor
    "Unexpected error: ...". *)
Theorem main_output_shape {Document Parser : Type} (W : World Document Parser) :
  (exists pdf_docs docx_docs txt_docs,
      fst (process_document W "/path/to/document.pdf" true main_processor)
        = Ok pdf_docs
      /\ fst (process_document W "/path/to/document.docx" false main_processor)
        = Ok docx_docs
      /\ fst (process_document W "/path/to/document.txt" true main_processor)
        = Ok txt_docs
      /\ main W =
           ["Loaded " ++ str_of_len pdf_docs ++ " PDF document chunks";
            "Loaded " ++ str_of_len docx_docs ++ " DOCX documents (unsplit)";
            "Loaded " ++ str_of_len txt_docs ++ " TXT document chunks"])
  \/ (exists m,
        main W = ["Error processing document: Document processing failed: " ++ m]
        \/ main W = ["Error processing document: Unexpected error during document processing: " ++ m]).
Proof.
  unfold main. rewrite main_body_eq.
  destruct (fst (process_document W "/path/to/document.pdf" true main_processor))
    as [d1|e] eqn:E1.
  2: { right. destruct (process_document_raises W _ _ _ e E1) as [m [-> | ->]];
       exists m; [left | right]; reflexivity. }
  destruct (fst (process_document W "/path/to/document.docx" false main_processor))
    as [d2|e] eqn:E2.
  2: { right. destruct (process_document_raises W _ _ _ e E2) as [m [-> | ->]];
       exists m; [left | right]; reflexivity. }
  destruct (fst (process_document W "/path/to/document.txt" true main_processor))
    as [d3|e] eqn:E3.
  2: { right. destruct (process_document_raises W _ _ _ e E3) as [m [-> | ->]];
       exists m; [left | right]; reflexivity. }
  left. exists d1, d2, d3. repeat split.
Qed.

(** X15. The script stops at the first call that fails: it prints
    "Error processing document: " and the message of that call's error as
    its only line, and nothing about the documents loaded before or the
    documents not yet tried. *)
Theorem main_reports_first_failure {Document Parser : Type}
    (W : World Document Parser) (e : exn) :
  (fst (process_document W "/path/to/document.pdf" true main_processor) = Err e
   \/ (exists pdf_docs,
         fst (process_document W "/path/to/document.pdf" true main_processor)
           = Ok pdf_docs
         /\ fst (process_document W "/path/to/document.docx" false main_processor)
           = Err e)
   \/ (exists pdf_docs docx_docs,
         fst (process_document W "/path/to/document.pdf" true main_processor)
           = Ok pdf_docs
         /\ fst (process_document W "/path/to/document.docx" false main_processor)
           = Ok docx_docs
         /\ fst (process_document W "/path/to/document.txt" true main_processor)
           = Err e)) ->
  main W = ["Error processing document: " ++ Exn.str e].
Proof.
  intros H. unfold main. rewrite main_body_eq.
  assert (Hcls : Exn.class e = Exn.FileLoadError).
  { destruct H as [H|[[d1 [_ H]]|[d1 [d2 [_ [_ H]]]]]];
      destruct (process_document_raises W _ _ _ e H) as [m [-> | ->]];
      reflexivity. }
  destruct H as [H|[[d1 [H1 H]]|[d1 [d2 [H1 [H2 H]]]]]].
  - rewrite H, Hcls. reflexivity.
  - rewrite H1, H, Hcls. reflexivity.
  - rewrite H1, H2, H, Hcls. reflexivity.
Qed.

Lemma main_reports_first_failure_witness :
  main Demo.world =
    ["Error processing document: Document processing failed: File not found: /path/to/document.pdf"].
Proof.
  apply (main_reports_first_failure Demo.world
           (Exn.Raise Exn.FileLoadError
              "Document processing failed: File not found: /path/to/document.pdf")).
  left. reflexivity.
Defined.

(** The script where every file exists and every parser reads: two chunks
    for the PDF and the text file, one document for the DOCX file. *)
Example main_all_loaded :
  main Demo.full_world =
    ["Loaded 2 PDF document chunks";
     "Loaded 1 DOCX documents (unsplit)";
     "Loaded 2 TXT document chunks"].
Proof. reflexivity. Qed.

(** X16. Without splitting, the configuration plays no part: two processors
    with any two configurations give the same outcome on the same path. *)
Theorem process_document_load_ignores_config {Document Parser : Type}
    (W : World Document Parser) (self self' : DocumentProcessor) (p : string) :
  fst (process_document W p false self) = fst (process_document W p false self').
Proof.
  rewrite !process_document_eq, !process_document_body_eq.
  destruct (create_loader W p) as [l|e]; simpl.
  - destruct (load W l) as [docs|e]; [reflexivity|].
    unfold process_document_except, mraise. destruct (Exn.class e); reflexivity.
  - unfold process_document_except, mraise. destruct (Exn.class e); reflexivity.
Qed.

(** X17. End to end: on an existing path with a supported extension whose
    parser [h] constructs, [process_document] returns exactly the list the
    parser returns, from [load_and_split] with the splitter of the held
    configuration when splitting, from [load] otherwise; nothing is added,
    dropped or reordered. *)
Theorem process_document_returns_parser_documents {Document Parser : Type}
    (W : World Document Parser) (self : DocumentProcessor)
    (p : string) (h : Parser) (docs : list Document) :
  path_exists W p = true ->
  (ext_of p = ".pdf" /\ PyPDFLoader W p = Ok h)
  \/ (ext_of p = ".docx" /\ Docx2txtLoader W p = Ok h)
  \/ (ext_of p = ".txt" /\ TextLoader W p = Ok h) ->
  (parser_load_and_split W h
     (mkSplitter (chunk_size (config self)) (chunk_overlap (config self)))
     = Ok docs ->
   process_document W p true self = (Ok docs, self))
  /\ (parser_load W h = Ok docs ->
      process_document W p false self = (Ok docs, self)).
Proof.
  intros Hex Hctor.
  rewrite !process_document_eq, !process_document_body_eq.
  rewrite (create_loader_existing W p Hex). unfold splitter_of.
  destruct Hctor as [[-> ->]|[[-> ->]|[-> ->]]]; simpl;
    split; intros ->; reflexivity.
Qed.

Lemma process_document_returns_parser_documents_witness :
  process_document Demo.world "/docs/report.PDF" true Demo.processor =
    (Ok ["first chunk of /docs/report.PDF"; "second chunk of /docs/report.PDF"],
     Demo.processor)
  /\ process_document Demo.world "/docs/notes.txt" false Demo.processor =
    (Ok ["text of /docs/notes.txt"], Demo.processor).
Proof.
  split.
  - apply (proj1 (process_document_returns_parser_documents Demo.world
             Demo.processor "/docs/report.PDF" "/docs/report.PDF" _
             eq_refl (or_introl (conj eq_refl eq_refl)))).
    reflexivity.
  - apply (proj2 (process_document_returns_parser_documents Demo.world
             Demo.processor "/docs/notes.txt" "/docs/notes.txt" _
             eq_refl (or_intror (or_intror (conj eq_refl eq_refl))))).
    reflexivity.
Defined.
